(** * The logo bot: slash-command handler, remote generator stub, start-up

    A shallow embedding of [discord_logo_bot.py] and [logo_generator.py].

    Conventions of the embedding.

    - A Python [str] is a [string]: the byte sequence of its UTF-8 form, so
      that a literal of the source is written here as the same literal, an
      f-string is concatenation, and [s.encode('utf-8')] yields the bytes
      of [s].  A [str] without a UTF-8 form (one holding a lone surrogate)
      has no counterpart here.
    - A call that may raise returns a [result]: [Return v] or [Raise e],
      [e] standing for an instance of [Exception], which is what the
      handler's [except Exception] clause matches.  Interrupts and
      interpreter exits ([KeyboardInterrupt], [SystemExit]) are not
      instances of [Exception] and are not outcomes of a call here;
      [KeyboardInterrupt] appears where the source names it, in
      [start_bot], as a flag.
    - The calls the code makes on objects of libraries (the interaction
      object of the chat platform, the remote function handle, the client,
      [print]) are recorded, in program order, in a trace of events.  The
      trace is what the code asks for; what the platform then does with a
      request is not part of the program.  Recording a call does not
      raise: the calls with a raising outcome are the remote call and
      [tree.sync()].
    - The remote function handle is a parameter: what [.remote] answers
      is decided by the deployment, not by the body in
      [logo_generator.py]. *)

From Stdlib.Strings Require Import String Ascii Byte.
From Stdlib Require Import List Arith Bool Lia.
From stdpp Require Import gmap strings.
Import ListNotations.
Local Open Scope string_scope.
Local Open Scope nat_scope.
Local Open Scope list_scope.
#[local] Arguments String.append : simpl nomatch.

(** ** Results of calls and the trace monad *)

(** An instance of [Exception]: its class name and [str(e)]. *)
Record PyExc : Type := mkExc { exc_type : string; exc_str : string }.

Inductive result (A : Type) : Type :=
| Return (a : A)
| Raise (e : PyExc).
Arguments Return {A} a.
Arguments Raise {A} e.

(** A computation over events [E]: its outcome and the events it emitted. *)
Definition IO (E A : Type) : Type := (result A * list E)%type.

Definition ret {E A} (a : A) : IO E A := (Return a, []).

Definition bind {E A B} (m : IO E A) (k : A -> IO E B) : IO E B :=
  match m with
  | (Return a, t) => let (r, t') := k a in (r, t ++ t')
  | (Raise e, t) => (Raise e, t)
  end.

Definition emit {E} (ev : E) : IO E unit := (Return tt, [ev]).

(** [try: body / except Exception as e: handler e]. *)
Definition try_except {E A} (body : IO E A) (handler : PyExc -> IO E A) : IO E A :=
  match body with
  | (Return a, t) => (Return a, t)
  | (Raise e, t) => let (r, t') := handler e in (r, t ++ t')
  end.

Definition outcome {E A} (m : IO E A) : result A := fst m.
Definition trace {E A} (m : IO E A) : list E := snd m.

Notation "x <- c1 ;; c2" := (bind c1 (fun x => c2))
  (at level 100, c1 at next level, right associativity).
Notation "c1 ;; c2" := (bind c1 (fun _ => c2))
  (at level 100, right associativity).

(** ** Strings *)

(** [s.encode('utf-8')] *)
Definition encode_utf8 (s : string) : list byte := list_byte_of_string s.

Definition starts_with (p s : string) : bool := String.prefix p s.

Definition ends_with (p s : string) : bool :=
  String.eqb (substring (String.length s - String.length p) (String.length p) s) p
  && (String.length p <=? String.length s).

(** A byte that continues a character of several bytes (binary 10xxxxxx). *)
Definition is_continuation (c : ascii) : bool :=
  let n := nat_of_ascii c in (128 <=? n) && (n <=? 191).

(** [s[:n]]: the first [n] characters, each with all of its bytes. *)
Fixpoint first_characters (n : nat) (s : string) : string :=
  match s with
  | EmptyString => EmptyString
  | String c s' =>
      if is_continuation c then String c (first_characters n s')
      else match n with
           | 0 => EmptyString
           | S n' => String c (first_characters n' s')
           end
  end.

Definition is_digit (c : ascii) : bool :=
  let n := nat_of_ascii c in (48 <=? n) && (n <=? 57).

Fixpoint all_digits (s : string) : bool :=
  match s with
  | EmptyString => true
  | String c s' => is_digit c && all_digits s'
  end.

(** ** [datetime] and [strftime('%Y%m%d_%H%M%S')] *)

Record datetime : Type := mkDatetime {
  year : nat; month : nat; day : nat;
  hour : nat; minute : nat; second : nat
}.

Definition MINYEAR : nat := 1.
Definition MAXYEAR : nat := 9999.

(** The ranges of the fields of a [datetime] object. *)
Definition valid_datetime (d : datetime) : bool :=
  (MINYEAR <=? year d) && (year d <=? MAXYEAR) &&
  (1 <=? month d) && (month d <=? 12) &&
  (1 <=? day d) && (day d <=? 31) &&
  (hour d <=? 23) && (minute d <=? 59) && (second d <=? 59).

Definition digit_char (d : nat) : ascii := ascii_of_nat (48 + d).

Fixpoint decimal_fuel (fuel n : nat) (acc : string) : string :=
  match fuel with
  | 0 => acc
  | S fuel' =>
      let acc' := String (digit_char (n mod 10)) acc in
      if n / 10 =? 0 then acc' else decimal_fuel fuel' (n / 10) acc'
  end.

(** [str(n)] for a non-negative integer. *)
Definition decimal (n : nat) : string := decimal_fuel (S n) n "".

Fixpoint zeros (k : nat) : string :=
  match k with
  | 0 => ""
  | S k' => String "0" (zeros k')
  end.

(** A number printed in at least [width] columns, filled with zeros on the
    left: the directives [%m %d %H %M %S] (width 2). *)
Definition zero_padded (width n : nat) : string :=
  let s := decimal n in zeros (width - String.length s) +:+ s.

(** [%Y] is the year in decimal as the C library prints it, without
    filling: four digits from the year 1000 on, fewer before. *)
Definition strftime_Ymd_HMS (d : datetime) : string :=
  decimal (year d) +:+ zero_padded 2 (month d) +:+ zero_padded 2 (day d)
  +:+ "_" +:+
  zero_padded 2 (hour d) +:+ zero_padded 2 (minute d) +:+ zero_padded 2 (second d).

(** ** logo_generator.py *)

Module logo_generator.

(** The body of the remote function: every prompt gets the same markup,
    and no path of the body raises. *)
Definition generate_logo_svg (prompt : string) : result string :=
  Return "<svg>...</svg>".

End logo_generator.

(** ** discord_logo_bot.py *)

Module discord_logo_bot.

(** *** The objects the handler builds *)

(** [app_commands.Choice(name=..., value=...)] *)
Record Choice : Type := mkChoice { name : string; value : string }.

(** The presets of [@app_commands.choices(style=[...])]. *)
Definition Cyberpunk : Choice := mkChoice "Cyberpunk" "cyberpunk neon with circuit patterns".
Definition Minimalist : Choice := mkChoice "Minimalist" "minimalist geometric clean".
Definition Retro : Choice := mkChoice "Retro" "retro 80s synthwave".
Definition Gaming : Choice := mkChoice "Gaming" "gaming esports bold".
Definition Tech_Startup : Choice := mkChoice "Tech Startup" "modern tech startup professional".

Definition style_choices : list Choice :=
  [Cyberpunk; Minimalist; Retro; Gaming; Tech_Startup].

Inductive Color : Type := blue | red.

(** [discord.Embed(title=..., description=..., color=...)], with the text
    of [set_footer] when it was called. *)
Record Embed : Type := mkEmbed {
  title : string;
  description : string;
  color : Color;
  footer : option string
}.

(** [discord.File(fp=io.BytesIO(...), filename=...)] *)
Record File : Type := mkFile { fp : list byte; filename : string }.

(** The calls of one invocation, as the handler issues them. *)
Inductive Event : Type :=
| response_send_message (content : string) (ephemeral : bool)
| response_defer
| remote (prompt : string)
| followup_send (embed : Embed) (file : option File) (ephemeral : bool).

(** *** Module state *)

(** The handle bound to [generate_logo_svg.remote]. *)
Definition RemoteFn : Type := string -> result string.

(** What [from logo_generator import generate_logo_svg] came to. *)
Inductive import_outcome : Type :=
| Imported (fn : RemoteFn)
| ImportError (msg : string).

(** The module-level name [generate_logo_svg] after the try/except around
    the import: the function, or [None]. *)
Definition bind_generate_logo_svg (o : import_outcome) : option RemoteFn :=
  match o with
  | Imported fn => Some fn
  | ImportError _ => None
  end.

(** What an invocation of the handler reads besides its arguments: the
    module-level name and the clock. *)
Record Runtime : Type := mkRuntime {
  generate_logo_svg : option RemoteFn;
  now : datetime
}.

(** *** The handler *)

(** [generate_logo_svg.remote(prompt=p)] *)
Definition call_remote (fn : RemoteFn) (p : string) : IO Event string :=
  (fn p, [remote p]).

(** Lines 72-75.  A [Choice] object defines neither [__bool__] nor
    [__len__], so [if style:] tests [style is not None]. *)
Definition full_prompt (prompt : string) (style : option Choice) : string :=
  match style with
  | Some style => prompt +:+ " in " +:+ value style +:+ " style"
  | None => prompt
  end.

Definition generate_logo (rt : Runtime) (prompt : string) (style : option Choice)
  : IO Event unit :=
  match generate_logo_svg rt with
  | None =>
      emit (response_send_message
              "❌ Modal app not connected. Please check the bot logs." true)
  | Some fn =>
      emit response_defer ;;
      try_except
        (svg_code <- call_remote fn (full_prompt prompt style) ;;
         let svg_file :=
           mkFile (encode_utf8 svg_code)
                  ("logo_" +:+ strftime_Ymd_HMS (now rt) +:+ ".svg") in
         let embed :=
           mkEmbed "🎨 Logo Generated!"
                   ("**Prompt:** " +:+ full_prompt prompt style) blue
                   (Some "Powered by Modal + Qwen3-8B") in
         emit (followup_send embed (Some svg_file) false))
        (fun e =>
           let error_embed :=
             mkEmbed "❌ Generation Failed" ("```" +:+ exc_str e +:+ "```") red None in
           emit (followup_send error_embed None true))
  end.

(** *** Reading a trace *)

(** The prompts handed to the remote function, in order. *)
Fixpoint remote_calls (t : list Event) : list string :=
  match t with
  | [] => []
  | remote p :: t' => p :: remote_calls t'
  | _ :: t' => remote_calls t'
  end.

(** The files attached to messages, in order. *)
Fixpoint attachments (t : list Event) : list File :=
  match t with
  | [] => []
  | followup_send _ (Some f) _ :: t' => f :: attachments t'
  | _ :: t' => attachments t'
  end.

(** The followup messages, in order. *)
Fixpoint followups (t : list Event) : list Event :=
  match t with
  | [] => []
  | followup_send e f eph :: t' => followup_send e f eph :: followups t'
  | _ :: t' => followups t'
  end.

(** No [remote] event occurs before the first [response_defer]. *)
Fixpoint deferred_before_remote (t : list Event) : bool :=
  match t with
  | [] => true
  | response_defer :: _ => true
  | remote _ :: _ => false
  | _ :: t' => deferred_before_remote t'
  end.

(** [logo_<8 digits>_<6 digits>.svg]: fourteen digits of date and time,
    split as [%Y%m%d_%H%M%S] splits them. *)
Definition logo_filename_pattern (s : string) : bool :=
  (String.length s =? 24) &&
  String.eqb (substring 0 5 s) "logo_" &&
  all_digits (substring 5 8 s) &&
  String.eqb (substring 13 1 s) "_" &&
  all_digits (substring 14 6 s) &&
  String.eqb (substring 20 4 s) ".svg".

(** *** Start-up *)

(** The calls of the start-up code. *)
Inductive BootEvent : Type :=
| env_read (key : string)
| print (line : string)
| client_start (token : string)
| client_close
| client_run (token : string).

(** How the script ends: [exit(code)], or by running off its last line. *)
Inductive termination : Type :=
| exit (code : nat)
| end_of_script.

(** [os.getenv(key)]: the value, or [None] when the variable is unset. *)
Definition os_getenv (env : gmap string string) (key : string)
  : IO BootEvent (option string) :=
  (Return (env !! key), [env_read key]).

(** Truth value of an optional string: [None] and [''] are false. *)
Definition truthy (v : option string) : bool :=
  match v with
  | Some s => negb (String.eqb s "")
  | None => false
  end.

(** [a or b]: [b] is evaluated only when [a] is false. *)
Definition py_or (a : option string) (b : IO BootEvent (option string))
  : IO BootEvent (option string) :=
  if truthy a then ret a else b.

(** [TOKEN = os.getenv("DISCORD_BOT_TOKE") or os.getenv("DISCORD_BOT_TOKEN")] *)
Definition TOKEN (env : gmap string string) : IO BootEvent (option string) :=
  first <- os_getenv env "DISCORD_BOT_TOKE" ;;
  py_or first (os_getenv env "DISCORD_BOT_TOKEN").

Definition token_missing : IO BootEvent unit :=
  emit (print "❌ Error: DISCORD_BOT_TOKEN not set in .env file") ;;
  emit (print "Add to .env file: DISCORD_BOT_TOKE=your-token-here").

(** [start_bot()].  [interrupted] tells whether [client.start] ends in a
    [KeyboardInterrupt]. *)
Definition start_bot (env : gmap string string) (interrupted : bool)
  : IO BootEvent unit :=
  token <- TOKEN env ;;
  if negb (truthy token) then token_missing
  else
    PUBLIC_KEY <- os_getenv env "DISCORD_PUBLIC_KEY" ;;
    APP_ID <- os_getenv env "DISCORD_APP_ID" ;;
    (if truthy PUBLIC_KEY
     then emit (print ("✅ Using Discord Public Key: "
                       +:+ first_characters 8 (default "" PUBLIC_KEY) +:+ "..."))
     else ret tt) ;;
    (if truthy APP_ID
     then emit (print ("✅ Using Discord App ID: " +:+ default "" APP_ID))
     else ret tt) ;;
    emit (print "🤖 Starting Discord bot...") ;;
    emit (client_start (default "" token)) ;;
    if interrupted then emit client_close else ret tt.

(** The [__main__] block.  [running_loop] tells whether
    [asyncio.get_running_loop()] finds a loop (it raises [RuntimeError]
    when there is none). *)
Definition main (env : gmap string string) (running_loop : bool)
  : IO BootEvent termination :=
  if running_loop then
    emit (print "📓 Jupyter/IPython detected") ;;
    emit (print "⚠️  Run this instead: await start_bot()") ;;
    emit (print "⚠️  Or better: run from command line with 'python discord_logo_bot.py'") ;;
    ret end_of_script
  else
    token <- TOKEN env ;;
    if negb (truthy token) then
      token_missing ;;
      ret (exit 1)
    else
      emit (print "🤖 Starting Discord bot...") ;;
      emit (client_run (default "" token)) ;;
      ret end_of_script.

(** The client was started somewhere in the trace. *)
Definition starts_client (t : list BootEvent) : bool :=
  existsb (fun ev => match ev with
                     | client_start _ | client_run _ => true
                     | _ => false
                     end) t.

(** *** Module set-up: the search path and the import *)

(** What the import block reads: the directory of the script when
    [__file__] is defined ([None] stands for the [NameError] of a
    notebook), the working directory, [os.path.join], and what
    [from logo_generator import generate_logo_svg] comes to under a given
    search path. *)
Record Host : Type := mkHost {
  file_dir : option string;
  getcwd : string;
  path_join : string -> string -> string -> string;
  import_logo_generator : list string -> import_outcome
}.

(** The inner try/except: the directory of the script, or the working
    directory. *)
Definition script_dir (h : Host) : string :=
  match file_dir h with
  | Some dir => dir
  | None => getcwd h
  end.

Definition modal_project_path (h : Host) : string :=
  path_join h (script_dir h) "modal_project" "src".

(** [path in sys.path] *)
Definition in_path (path : string) (sys_path : list string) : bool :=
  existsb (String.eqb path) sys_path.

(** [if path not in sys.path: sys.path.insert(0, path)] *)
Definition add_to_sys_path (path : string) (sys_path : list string)
  : list string :=
  if in_path path sys_path then sys_path else path :: sys_path.

(** Lines 16-38: the search path and the module-level name as the block
    leaves them. *)
Definition import_block (h : Host) (sys_path : list string)
  : IO BootEvent (list string * option RemoteFn) :=
  let sys_path' := add_to_sys_path (modal_project_path h) sys_path in
  match import_logo_generator h sys_path' with
  | Imported fn =>
      emit (print ("✅ Imported Modal function from: " +:+ modal_project_path h)) ;;
      ret (sys_path', Some fn)
  | ImportError msg =>
      emit (print ("⚠️  Warning: Could not import Modal function: " +:+ msg)) ;;
      emit (print "⚠️  Make sure modal_project/src/logo_generator.py exists") ;;
      emit (print ("⚠️  Current working directory: " +:+ getcwd h)) ;;
      ret (sys_path', None)
  end.

(** *** [on_ready] *)

(** [client.user] *)
Record User : Type := mkUser { user_name : string; user_id : nat }.

(** A synced command, by its name. *)
Definition AppCommand : Type := string.

(** The calls of [on_ready]: those of start-up, and [tree.sync()]. *)
Inductive ReadyEvent : Type :=
| startup (ev : BootEvent)
| tree_sync.

Definition lift {A} (m : IO BootEvent A) : IO ReadyEvent A :=
  (fst m, map startup (snd m)).

(** [await tree.sync()] *)
Definition call_sync (synced : result (list AppCommand))
  : IO ReadyEvent (list AppCommand) :=
  (synced, [tree_sync]).

Definition say (line : string) : IO ReadyEvent unit := lift (emit (print line)).

(** [if v: print(f"<label>{v}")] *)
Definition say_if_set (label : string) (v : option string) : IO ReadyEvent unit :=
  if truthy v then say (label +:+ default "" v) else ret tt.

(** [on_ready()].  [MODAL_SERVER] is the module-level constant, read from
    the environment when the module was loaded; [synced] is what
    [tree.sync()] comes to. *)
Definition on_ready (user : User) (env : gmap string string)
    (MODAL_SERVER : option string) (synced : result (list AppCommand))
  : IO ReadyEvent unit :=
  say ("✅ Logged in as " +:+ user_name user) ;;
  say ("✅ Bot ID: " +:+ decimal (user_id user)) ;;
  app_id <- lift (os_getenv env "DISCORD_APP_ID") ;;
  install_link <- lift (os_getenv env "DISCORD_INSTALL_LINK") ;;
  say_if_set "✅ Application ID: " app_id ;;
  say_if_set "🔗 Install Link: " install_link ;;
  say_if_set "🌐 Modal Server: " MODAL_SERVER ;;
  try_except
    (synced <- call_sync synced ;;
     say ("✅ Synced " +:+ decimal (List.length synced) +:+ " command(s)"))
    (fun e => say ("❌ Failed to sync commands: " +:+ exc_str e)).

(** The lines printed, in order. *)
Fixpoint printed (t : list ReadyEvent) : list string :=
  match t with
  | [] => []
  | startup (print line) :: t' => line :: printed t'
  | _ :: t' => printed t'
  end.

(** How many times [tree.sync()] was called. *)
Fixpoint sync_calls (t : list ReadyEvent) : nat :=
  match t with
  | [] => 0
  | tree_sync :: t' => S (sync_calls t')
  | _ :: t' => sync_calls t'
  end.

(** *** More readings of a trace *)

(** The first answer to an interaction: a message or an acknowledgment. *)
Definition is_initial_response (ev : Event) : bool :=
  match ev with
  | response_send_message _ _ | response_defer => true
  | _ => false
  end.


(** The tokens the client was started with ([client.start] or
    [client.run]), in order. *)
Fixpoint started_with (t : list BootEvent) : list string :=
  match t with
  | [] => []
  | client_start token :: t' => token :: started_with t'
  | client_run token :: t' => token :: started_with t'
  | _ :: t' => started_with t'
  end.

Definition closes_client (t : list BootEvent) : bool :=
  existsb (fun ev => match ev with client_close => true | _ => false end) t.

End discord_logo_bot.

(** ** Vocabulary of the properties *)

Import discord_logo_bot.

(** [needle] occurs in [haystack]. *)
Definition contains (needle haystack : string) : Prop :=
  exists before after, haystack = before +:+ needle +:+ after.

Definition two_digits (s : string) : bool :=
  (String.length s =? 2) && all_digits s.

Definition four_digits (s : string) : bool :=
  (String.length s =? 4) && all_digits s.

(** The messages of the handler, named after the run they end. *)
Definition unavailable_notice : Event :=
  response_send_message
    "❌ Modal app not connected. Please check the bot logs." true.

Definition success_embed (prompt : string) (style : option Choice) : Embed :=
  mkEmbed "🎨 Logo Generated!" ("**Prompt:** " +:+ full_prompt prompt style)
          blue (Some "Powered by Modal + Qwen3-8B").

Definition success_file (rt : Runtime) (svg_code : string) : File :=
  mkFile (encode_utf8 svg_code)
         ("logo_" +:+ strftime_Ymd_HMS (now rt) +:+ ".svg").

Definition failure_embed (e : PyExc) : Embed :=
  mkEmbed "❌ Generation Failed" ("```" +:+ exc_str e +:+ "```") red None.

(** What start-up does when it finds no token. *)
Definition refusal : list BootEvent :=
  [env_read "DISCORD_BOT_TOKE"; env_read "DISCORD_BOT_TOKEN";
   print "❌ Error: DISCORD_BOT_TOKEN not set in .env file";
   print "Add to .env file: DISCORD_BOT_TOKE=your-token-here"].

(** Sample runtimes for the concrete runs. *)
Definition noon : datetime := mkDatetime 2024 5 17 12 0 0.

Definition rt_fixed (svg_code : string) : Runtime :=
  mkRuntime (Some (fun _ => Return svg_code)) noon.

Definition rt_failing (e : PyExc) : Runtime :=
  mkRuntime (Some (fun _ => Raise e)) noon.

Definition rt_unbound : Runtime :=
  mkRuntime
    (bind_generate_logo_svg (ImportError "No module named 'logo_generator'"))
    noon.

Definition timed_out : PyExc := mkExc "TimeoutError" "deadline exceeded".

(** The number a string of digits writes. *)
Definition digit_value (c : ascii) : nat := nat_of_ascii c - 48.

Fixpoint decimal_value_from (v : nat) (s : string) : nat :=
  match s with
  | EmptyString => v
  | String c s' => decimal_value_from (10 * v + digit_value c) s'
  end.

Definition decimal_value (s : string) : nat := decimal_value_from 0 s.

(** The token start-up settles on. *)
Definition resolved_token (env : gmap string string) : option string :=
  if truthy (env !! "DISCORD_BOT_TOKE")
  then env !! "DISCORD_BOT_TOKE"
  else env !! "DISCORD_BOT_TOKEN".

(** The runs of [on_ready], piece by piece. *)
Definition sync_report (synced : result (list AppCommand)) : string :=
  match synced with
  | Return commands =>
      "✅ Synced " +:+ decimal (List.length commands) +:+ " command(s)"
  | Raise e => "❌ Failed to sync commands: " +:+ exc_str e
  end.

Definition set_count (v : option string) : nat := if truthy v then 1 else 0.

Definition say_event (line : string) : ReadyEvent := startup (print line).

Definition optional_line (label : string) (v : option string)
  : list ReadyEvent :=
  if truthy v then [say_event (label +:+ default "" v)] else [].

(** What [on_ready] does before it syncs. *)
Definition ready_prelude (user : User) (env : gmap string string)
    (MODAL_SERVER : option string) : list ReadyEvent :=
  [say_event ("✅ Logged in as " +:+ user_name user);
   say_event ("✅ Bot ID: " +:+ decimal (user_id user));
   startup (env_read "DISCORD_APP_ID");
   startup (env_read "DISCORD_INSTALL_LINK")]
  ++ optional_line "✅ Application ID: " (env !! "DISCORD_APP_ID")
  ++ optional_line "🔗 Install Link: " (env !! "DISCORD_INSTALL_LINK")
  ++ optional_line "🌐 Modal Server: " MODAL_SERVER.

(** A host on which the import finds nothing, and one on which it finds
    the module once the project directory is on the search path. *)
Definition slash_join (a b c : string) : string := a +:+ "/" +:+ b +:+ "/" +:+ c.

Definition host_without_project : Host :=
  mkHost (Some "/srv/bot") "/srv/bot" slash_join
         (fun _ => ImportError "No module named 'logo_generator'").

Definition host_with_project : Host :=
  mkHost None "/home/user" slash_join
         (fun sys_path =>
            if in_path "/home/user/modal_project/src" sys_path
            then Imported (fun _ => Return "<svg>x</svg>")
            else ImportError "No module named 'logo_generator'").

(** * Properties *)

(** ** Strings and time stamps *)

Lemma append_empty_r (s : string) : s +:+ "" = s.
Proof. induction s as [|c s IH]; simpl; [reflexivity | now rewrite IH]. Qed.

Lemma all_digits_append (s t : string) :
  all_digits (s +:+ t) = all_digits s && all_digits t.
Proof.
  induction s as [|c s IH]; simpl; [reflexivity |].
  rewrite IH. apply andb_assoc.
Qed.

Lemma length_append (s t : string) :
  String.length (s +:+ t) = String.length s + String.length t.
Proof. induction s as [|c s IH]; simpl; [reflexivity | now rewrite IH]. Qed.

Lemma zeros_digits (k : nat) : all_digits (zeros k) = true.
Proof. induction k as [|k IH]; simpl; [reflexivity | exact IH]. Qed.

Lemma zeros_length (k : nat) : String.length (zeros k) = k.
Proof. induction k as [|k IH]; simpl; [reflexivity | now rewrite IH]. Qed.

Lemma digit_char_is_digit (d : nat) : d < 10 -> is_digit (digit_char d) = true.
Proof.
  intros Hd.
  do 10 (destruct d as [|d]; [reflexivity |]).
  lia.
Qed.

(** Every character that [decimal_fuel] puts in front of the accumulator
    is a digit. *)
Lemma decimal_fuel_digits (fuel : nat) :
  forall n acc,
    all_digits acc = true -> all_digits (decimal_fuel fuel n acc) = true.
Proof.
  induction fuel as [|fuel IH]; intros n acc Hacc; cbn [decimal_fuel];
    [exact Hacc |].
  assert (Hstep : all_digits (String (digit_char (n mod 10)) acc) = true).
  { cbn [all_digits]. rewrite digit_char_is_digit, Hacc; [reflexivity |].
    apply Nat.mod_upper_bound. discriminate. }
  destruct (n / 10 =? 0); [exact Hstep | apply IH, Hstep].
Qed.

(** A number below [10 ^ k] gets at most [k] characters. *)
Lemma decimal_fuel_length (fuel : nat) :
  forall k n acc,
    1 <= k -> n < 10 ^ k ->
    String.length (decimal_fuel fuel n acc) <= k + String.length acc.
Proof.
  induction fuel as [|fuel IH]; intros k n acc Hk Hn; cbn [decimal_fuel];
    [lia |].
  destruct (n / 10 =? 0) eqn:Hq; cbn [String.length]; [lia |].
  apply Nat.eqb_neq in Hq.
  destruct k as [|k]; [lia |].
  assert (Hdiv : n / 10 < 10 ^ k).
  { apply Nat.Div0.div_lt_upper_bound. rewrite Nat.pow_succ_r' in Hn. exact Hn. }
  assert (Hk' : 1 <= k).
  { destruct k as [|k]; [| lia]. rewrite Nat.pow_0_r in Hdiv. lia. }
  specialize (IH k (n / 10) (String (digit_char (n mod 10)) acc) Hk' Hdiv).
  cbn [String.length] in IH. lia.
Qed.

Lemma zero_padded_width (width n : nat) :
  1 <= width -> n < 10 ^ width ->
  String.length (zero_padded width n) = width /\
  all_digits (zero_padded width n) = true.
Proof.
  intros Hw Hn. unfold zero_padded, decimal.
  pose proof (decimal_fuel_length (S n) width n "" Hw Hn) as Hlen.
  pose proof (decimal_fuel_digits (S n) n "" eq_refl) as Hdig.
  cbn [String.length] in Hlen.
  rewrite length_append, zeros_length, all_digits_append, zeros_digits, Hdig.
  split; [lia | reflexivity].
Qed.

Lemma zero_padded_2 (n : nat) : n < 100 -> two_digits (zero_padded 2 n) = true.
Proof.
  intros Hn. unfold two_digits.
  destruct (zero_padded_width 2 n) as [-> ->];
    [lia | change (10 ^ 2) with 100; exact Hn | reflexivity].
Qed.

Lemma MAXYEAR_four_columns : S MAXYEAR = 10 ^ 4.
Proof. reflexivity. Qed.

(** A number from [10 ^ k] on gets more than [k] characters, given fuel
    to spare. *)
Lemma decimal_fuel_length_from (fuel : nat) :
  forall k n acc,
    n < fuel -> 10 ^ k <= n ->
    S k + String.length acc <= String.length (decimal_fuel fuel n acc).
Proof.
  induction fuel as [|fuel IH]; intros k n acc Hfuel Hn; [lia |].
  cbn [decimal_fuel].
  destruct (n / 10 =? 0) eqn:Hq.
  - apply Nat.eqb_eq in Hq.
    assert (Hsmall : n < 10).
    { pose proof (Nat.div_mod_eq n 10) as Hdm.
      pose proof (Nat.mod_upper_bound n 10 ltac:(discriminate)). lia. }
    destruct k as [|k]; [cbn [String.length]; lia |].
    rewrite Nat.pow_succ_r' in Hn.
    pose proof (Nat.pow_nonzero 10 k ltac:(discriminate)). lia.
  - apply Nat.eqb_neq in Hq.
    assert (Hlt : n / 10 < fuel).
    { pose proof (Nat.div_mod_eq n 10) as Hdm. lia. }
    destruct k as [|k].
    + assert (H1 : 10 ^ 0 <= n / 10) by (rewrite Nat.pow_0_r; lia).
      specialize (IH 0 (n / 10) (String (digit_char (n mod 10)) acc) Hlt H1).
      cbn [String.length] in IH. lia.
    + assert (Hk : 10 ^ k <= n / 10).
      { apply Nat.div_le_lower_bound; [discriminate |].
        rewrite Nat.pow_succ_r' in Hn. exact Hn. }
      specialize (IH k (n / 10) (String (digit_char (n mod 10)) acc) Hlt Hk).
      cbn [String.length] in IH. lia.
Qed.

(** From the year 1000 to [MAXYEAR], the year is printed in four digits. *)
Lemma four_digit_year (n : nat) :
  1000 <= n -> n <= MAXYEAR -> four_digits (decimal n) = true.
Proof.
  intros Hlow Hhigh. unfold four_digits, decimal.
  assert (Hup : n < 10 ^ 4) by (rewrite <- MAXYEAR_four_columns; lia).
  pose proof (decimal_fuel_length (S n) 4 n "" ltac:(lia) Hup) as Hle.
  assert (Hlow' : 10 ^ 3 <= n) by (change (10 ^ 3) with 1000; exact Hlow).
  pose proof (decimal_fuel_length_from (S n) 3 n "" ltac:(lia) Hlow') as Hge.
  cbn [String.length] in Hle, Hge.
  rewrite (decimal_fuel_digits (S n) n "" eq_refl), andb_true_r.
  apply Nat.eqb_eq. lia.
Qed.

Lemma two_digits_shape (s : string) :
  two_digits s = true ->
  exists a b, s = String a (String b "") /\ is_digit a = true /\ is_digit b = true.
Proof.
  unfold two_digits.
  destruct s as [|a [|b [|c s]]]; simpl; try discriminate.
  intros H. exists a, b.
  destruct (is_digit a), (is_digit b); try discriminate. auto.
Qed.

Lemma four_digits_shape (s : string) :
  four_digits s = true ->
  exists a b c d,
    s = String a (String b (String c (String d ""))) /\
    is_digit a = true /\ is_digit b = true /\ is_digit c = true /\ is_digit d = true.
Proof.
  unfold four_digits.
  destruct s as [|a [|b [|c [|d [|e s]]]]]; simpl; try discriminate.
  intros H. exists a, b, c, d.
  destruct (is_digit a), (is_digit b), (is_digit c), (is_digit d);
    try discriminate. auto.
Qed.

Lemma valid_datetime_bounds (d : datetime) :
  valid_datetime d = true ->
  year d <= MAXYEAR /\ month d < 100 /\ day d < 100 /\
  hour d < 100 /\ minute d < 100 /\ second d < 100.
Proof.
  unfold valid_datetime. intros H.
  repeat (apply andb_prop in H; destruct H as [H ?]).
  repeat match goal with
         | E : (_ <=? _) = true |- _ => apply Nat.leb_le in E
         end.
  lia.
Qed.

(** The name built by the handler has the shape of the pattern, whatever
    the clock reading from the year 1000 on. *)
Lemma logo_filename_shape (d : datetime) :
  valid_datetime d = true ->
  1000 <= year d ->
  logo_filename_pattern ("logo_" +:+ strftime_Ymd_HMS d +:+ ".svg") = true /\
  ends_with ".svg" ("logo_" +:+ strftime_Ymd_HMS d +:+ ".svg") = true.
Proof.
  intros Hv Hlow. apply valid_datetime_bounds in Hv.
  destruct Hv as (Hy & Hm & Hd & HH & HM & HS).
  unfold strftime_Ymd_HMS.
  destruct (four_digits_shape _ (four_digit_year _ Hlow Hy))
    as (y1 & y2 & y3 & y4 & -> & Y1 & Y2 & Y3 & Y4).
  destruct (two_digits_shape _ (zero_padded_2 _ Hm)) as (m1 & m2 & -> & M1 & M2).
  destruct (two_digits_shape _ (zero_padded_2 _ Hd)) as (d1 & d2 & -> & D1 & D2).
  destruct (two_digits_shape _ (zero_padded_2 _ HH)) as (h1 & h2 & -> & H1 & H2).
  destruct (two_digits_shape _ (zero_padded_2 _ HM)) as (n1 & n2 & -> & N1 & N2).
  destruct (two_digits_shape _ (zero_padded_2 _ HS)) as (s1 & s2 & -> & S1 & S2).
  unfold logo_filename_pattern, ends_with. cbn.
  rewrite Y1, Y2, Y3, Y4, M1, M2, D1, D2, H1, H2, N1, N2, S1, S2.
  split; reflexivity.
Qed.

(** ** The three runs of the handler *)

Section Handler.

Variable rt : Runtime.
Variable prompt : string.
Variable style : option Choice.

Lemma run_unavailable :
  generate_logo_svg rt = None ->
  generate_logo rt prompt style = (Return tt, [unavailable_notice]).
Proof. intros H. unfold generate_logo. rewrite H. reflexivity. Qed.

Lemma run_success (fn : RemoteFn) (svg_code : string) :
  generate_logo_svg rt = Some fn ->
  fn (full_prompt prompt style) = Return svg_code ->
  generate_logo rt prompt style =
  (Return tt,
   [response_defer; remote (full_prompt prompt style);
    followup_send (success_embed prompt style)
                  (Some (success_file rt svg_code)) false]).
Proof.
  intros Hfn Hcall. unfold generate_logo. rewrite Hfn.
  unfold call_remote, try_except, bind, emit. rewrite Hcall. reflexivity.
Qed.

Lemma run_failure (fn : RemoteFn) (e : PyExc) :
  generate_logo_svg rt = Some fn ->
  fn (full_prompt prompt style) = Raise e ->
  generate_logo rt prompt style =
  (Return tt,
   [response_defer; remote (full_prompt prompt style);
    followup_send (failure_embed e) None true]).
Proof.
  intros Hfn Hcall. unfold generate_logo. rewrite Hfn.
  unfold call_remote, try_except, bind, emit. rewrite Hcall. reflexivity.
Qed.

(** With a generator bound, every run is the acknowledgment, the one
    remote call and one followup. *)
Lemma run_available (fn : RemoteFn) :
  generate_logo_svg rt = Some fn ->
  exists embed file eph,
    generate_logo rt prompt style =
    (Return tt,
     [response_defer; remote (full_prompt prompt style);
      followup_send embed file eph]).
Proof.
  intros Hfn. destruct (fn (full_prompt prompt style)) as [svg_code|e] eqn:Hcall.
  - do 3 eexists. apply (run_success fn svg_code Hfn Hcall).
  - do 3 eexists. apply (run_failure fn e Hfn Hcall).
Qed.

End Handler.

(** ** Composition of the prompt *)

(** C1.  When a style was chosen, the one prompt handed to the remote
    function is the user's prompt, then " in ", then the value string of
    the chosen preset, then " style". *)
Theorem styled_prompt_reaches_remote
    (rt : Runtime) (prompt : string) (style : Choice) (fn : RemoteFn) :
  generate_logo_svg rt = Some fn ->
  remote_calls (trace (generate_logo rt prompt (Some style))) =
  [prompt +:+ " in " +:+ value style +:+ " style"].
Proof.
  intros Hfn.
  destruct (run_available rt prompt (Some style) fn Hfn)
    as (embed & file & eph & Hrun).
  rewrite Hrun. destruct file; reflexivity.
Qed.

(** The scenario of the specification: "a fox" with the preset named
    Retro. *)
Lemma styled_prompt_reaches_remote_witness :
  generate_logo_svg (rt_fixed "<svg>x</svg>") =
  Some (fun _ => Return "<svg>x</svg>") /\
  remote_calls
    (trace (generate_logo (rt_fixed "<svg>x</svg>") "a fox" (Some Retro))) =
  ["a fox in retro 80s synthwave style"].
Proof.
  split; [reflexivity |].
  exact (styled_prompt_reaches_remote (rt_fixed "<svg>x</svg>") "a fox" Retro
           (fun _ => Return "<svg>x</svg>") eq_refl).
Defined.

(** C2.  When no style was chosen, the one prompt handed to the remote
    function is the user's prompt itself. *)
Theorem plain_prompt_reaches_remote
    (rt : Runtime) (prompt : string) (fn : RemoteFn) :
  generate_logo_svg rt = Some fn ->
  full_prompt prompt None = prompt /\
  remote_calls (trace (generate_logo rt prompt None)) = [prompt].
Proof.
  intros Hfn. split; [reflexivity |].
  destruct (run_available rt prompt None fn Hfn)
    as (embed & file & eph & Hrun).
  rewrite Hrun. destruct file; reflexivity.
Qed.

Lemma plain_prompt_reaches_remote_witness :
  generate_logo_svg (rt_fixed "<svg>x</svg>") =
  Some (fun _ => Return "<svg>x</svg>") /\
  full_prompt "a fox" None = "a fox" /\
  remote_calls
    (trace (generate_logo (rt_fixed "<svg>x</svg>") "a fox" None)) = ["a fox"].
Proof.
  split; [reflexivity |].
  exact (plain_prompt_reaches_remote (rt_fixed "<svg>x</svg>") "a fox"
           (fun _ => Return "<svg>x</svg>") eq_refl).
Defined.

(** ** Unavailable backend *)

(** C3.  While the module-level name is [None] (which is what a failed
    import leaves), an invocation makes no remote call: it sends one
    message, flagged ephemeral, and returns. *)
Theorem unbound_generator_short_circuits
    (rt : Runtime) (prompt : string) (style : option Choice) :
  generate_logo_svg rt = None ->
  generate_logo rt prompt style =
  (Return tt,
   [response_send_message
      "❌ Modal app not connected. Please check the bot logs." true]) /\
  remote_calls (trace (generate_logo rt prompt style)) = [] /\
  forall msg, bind_generate_logo_svg (ImportError msg) = None.
Proof.
  intros Hnone. rewrite (run_unavailable rt prompt style Hnone).
  repeat split; reflexivity.
Qed.

Lemma unbound_generator_short_circuits_witness :
  generate_logo_svg rt_unbound = None /\
  generate_logo rt_unbound "a fox" (Some Gaming) =
  (Return tt,
   [response_send_message
      "❌ Modal app not connected. Please check the bot logs." true]).
Proof.
  split; [reflexivity |].
  exact (proj1 (unbound_generator_short_circuits rt_unbound "a fox"
                  (Some Gaming) eq_refl)).
Defined.

(** ** Order of acknowledgment and remote call *)

(** C4.  With a generator bound, the first call of the handler is the
    deferred acknowledgment and the remote call comes right after it; no
    remote call occurs anywhere before the acknowledgment. *)
Theorem ack_precedes_remote
    (rt : Runtime) (prompt : string) (style : option Choice) (fn : RemoteFn) :
  generate_logo_svg rt = Some fn ->
  (exists rest,
      trace (generate_logo rt prompt style) =
      response_defer :: remote (full_prompt prompt style) :: rest /\
      remote_calls rest = []) /\
  deferred_before_remote (trace (generate_logo rt prompt style)) = true.
Proof.
  intros Hfn.
  destruct (run_available rt prompt style fn Hfn)
    as (embed & file & eph & Hrun).
  rewrite Hrun. split; [| reflexivity].
  exists [followup_send embed file eph]. split; reflexivity.
Qed.

Lemma ack_precedes_remote_witness :
  generate_logo_svg (rt_fixed "<svg>x</svg>") =
  Some (fun _ => Return "<svg>x</svg>") /\
  deferred_before_remote
    (trace (generate_logo (rt_fixed "<svg>x</svg>") "a fox" None)) = true.
Proof.
  split; [reflexivity |].
  exact (proj2 (ack_precedes_remote (rt_fixed "<svg>x</svg>") "a fox" None
                  (fun _ => Return "<svg>x</svg>") eq_refl)).
Defined.

(** ** The reply to a successful remote call *)

(** C5.  When the remote call returns, the handler sends one followup, to
    the channel (not ephemeral), carrying exactly one file; the file is
    named "logo_", the clock reading printed as YYYYMMDD_HHMMSS, ".svg":
    it ends in ".svg" and has the fourteen digits of the pattern.  The
    clock reading is the current time: a date the clock of a machine can
    show, from the year 1000 on, where [%Y] has its four digits. *)
Theorem success_attaches_one_svg
    (rt : Runtime) (prompt : string) (style : option Choice)
    (fn : RemoteFn) (svg_code : string) :
  generate_logo_svg rt = Some fn ->
  fn (full_prompt prompt style) = Return svg_code ->
  valid_datetime (now rt) = true ->
  1000 <= year (now rt) ->
  exists embed file,
    followups (trace (generate_logo rt prompt style)) =
    [followup_send embed (Some file) false] /\
    attachments (trace (generate_logo rt prompt style)) = [file] /\
    filename file = "logo_" +:+ strftime_Ymd_HMS (now rt) +:+ ".svg" /\
    ends_with ".svg" (filename file) = true /\
    logo_filename_pattern (filename file) = true.
Proof.
  intros Hfn Hcall Hclock Hyear.
  rewrite (run_success rt prompt style fn svg_code Hfn Hcall).
  exists (success_embed prompt style), (success_file rt svg_code).
  destruct (logo_filename_shape (now rt) Hclock Hyear) as [Hpattern Hext].
  repeat split; assumption || reflexivity.
Qed.

Lemma success_attaches_one_svg_witness :
  generate_logo_svg (rt_fixed "<svg>x</svg>") =
  Some (fun _ => Return "<svg>x</svg>") /\
  valid_datetime (now (rt_fixed "<svg>x</svg>")) = true /\
  1000 <= year (now (rt_fixed "<svg>x</svg>")) /\
  exists embed file,
    followups
      (trace (generate_logo (rt_fixed "<svg>x</svg>") "a fox" (Some Retro))) =
    [followup_send embed (Some file) false] /\
    attachments
      (trace (generate_logo (rt_fixed "<svg>x</svg>") "a fox" (Some Retro))) =
    [file] /\
    filename file = "logo_20240517_120000.svg" /\
    ends_with ".svg" (filename file) = true /\
    logo_filename_pattern (filename file) = true.
Proof.
  split; [reflexivity |]. split; [reflexivity |].
  split; [exact (proj1 (Nat.leb_le 1000 2024) eq_refl) |].
  exact (success_attaches_one_svg (rt_fixed "<svg>x</svg>") "a fox" (Some Retro)
           (fun _ => Return "<svg>x</svg>") "<svg>x</svg>"
           eq_refl eq_refl eq_refl (proj1 (Nat.leb_le 1000 2024) eq_refl)).
Defined.

(** C6.  When the remote call returns, the bytes of the attached file are
    the UTF-8 encoding of the returned string, nothing added or removed,
    and the description of the embed sent with it shows the composed
    prompt. *)
Theorem success_file_carries_svg
    (rt : Runtime) (prompt : string) (style : option Choice)
    (fn : RemoteFn) (svg_code : string) :
  generate_logo_svg rt = Some fn ->
  fn (full_prompt prompt style) = Return svg_code ->
  exists embed file,
    followups (trace (generate_logo rt prompt style)) =
    [followup_send embed (Some file) false] /\
    fp file = encode_utf8 svg_code /\
    description embed = "**Prompt:** " +:+ full_prompt prompt style /\
    contains (full_prompt prompt style) (description embed).
Proof.
  intros Hfn Hcall.
  rewrite (run_success rt prompt style fn svg_code Hfn Hcall).
  exists (success_embed prompt style), (success_file rt svg_code).
  repeat split.
  exists "**Prompt:** ", "". simpl description.
  now rewrite append_empty_r.
Qed.

(** The scenario of the specification: "a fox", no style, the remote
    function returning "<svg>x</svg>". *)
Lemma success_file_carries_svg_witness :
  generate_logo_svg (rt_fixed "<svg>x</svg>") = Some (fun _ => Return "<svg>x</svg>") /\
  exists embed file,
    followups (trace (generate_logo (rt_fixed "<svg>x</svg>") "a fox" None)) =
    [followup_send embed (Some file) false] /\
    fp file = list_byte_of_string "<svg>x</svg>" /\
    description embed = "**Prompt:** a fox" /\
    contains "a fox" (description embed).
Proof.
  split; [reflexivity |].
  exact (success_file_carries_svg (rt_fixed "<svg>x</svg>") "a fox" None
           (fun _ => Return "<svg>x</svg>") "<svg>x</svg>" eq_refl eq_refl).
Defined.

(** ** The reply to a failed remote call *)

(** C7.  When the remote call raises, the exception does not leave the
    handler; the handler sends one followup, flagged ephemeral, whose
    embed description contains [str(e)]. *)
Theorem remote_exception_reported_privately
    (rt : Runtime) (prompt : string) (style : option Choice)
    (fn : RemoteFn) (e : PyExc) :
  generate_logo_svg rt = Some fn ->
  fn (full_prompt prompt style) = Raise e ->
  outcome (generate_logo rt prompt style) = Return tt /\
  exists embed,
    followups (trace (generate_logo rt prompt style)) =
    [followup_send embed None true] /\
    description embed = "```" +:+ exc_str e +:+ "```" /\
    contains (exc_str e) (description embed).
Proof.
  intros Hfn Hcall.
  rewrite (run_failure rt prompt style fn e Hfn Hcall).
  split; [reflexivity |].
  exists (failure_embed e). repeat split.
  exists "```", "```". reflexivity.
Qed.

Lemma remote_exception_reported_privately_witness :
  generate_logo_svg (rt_failing timed_out) = Some (fun _ => Raise timed_out) /\
  outcome (generate_logo (rt_failing timed_out) "a fox" None) = Return tt /\
  exists embed,
    followups (trace (generate_logo (rt_failing timed_out) "a fox" None)) =
    [followup_send embed None true] /\
    description embed = "```deadline exceeded```" /\
    contains "deadline exceeded" (description embed).
Proof.
  split; [reflexivity |].
  exact (remote_exception_reported_privately (rt_failing timed_out) "a fox" None
           (fun _ => Raise timed_out) timed_out eq_refl eq_refl).
Defined.

(** C8.  When the remote call raises, the whole run is: acknowledgment,
    the one remote call, the failure notice.  The remote function is
    called once, no file is attached to anything, and the notice is the
    only followup. *)
Theorem remote_exception_no_retry_no_output
    (rt : Runtime) (prompt : string) (style : option Choice)
    (fn : RemoteFn) (e : PyExc) :
  generate_logo_svg rt = Some fn ->
  fn (full_prompt prompt style) = Raise e ->
  trace (generate_logo rt prompt style) =
  [response_defer; remote (full_prompt prompt style);
   followup_send (failure_embed e) None true] /\
  remote_calls (trace (generate_logo rt prompt style)) =
  [full_prompt prompt style] /\
  attachments (trace (generate_logo rt prompt style)) = [] /\
  followups (trace (generate_logo rt prompt style)) =
  [followup_send (failure_embed e) None true].
Proof.
  intros Hfn Hcall.
  rewrite (run_failure rt prompt style fn e Hfn Hcall).
  repeat split.
Qed.

Lemma remote_exception_no_retry_no_output_witness :
  generate_logo_svg (rt_failing timed_out) = Some (fun _ => Raise timed_out) /\
  remote_calls (trace (generate_logo (rt_failing timed_out) "a fox" (Some Retro))) =
  ["a fox in retro 80s synthwave style"] /\
  attachments (trace (generate_logo (rt_failing timed_out) "a fox" (Some Retro))) = [].
Proof.
  split; [reflexivity |].
  pose proof (remote_exception_no_retry_no_output (rt_failing timed_out) "a fox"
                (Some Retro) (fun _ => Raise timed_out) timed_out
                eq_refl eq_refl) as (_ & Hcalls & Hfiles & _).
  exact (conj Hcalls Hfiles).
Defined.

(** ** The stub *)

(** C9.  Whatever the prompt, the stub returns, without raising, the
    constant "<svg>...</svg>", which opens with an svg tag and closes
    with its end tag. *)
Theorem stub_always_returns_svg (prompt : string) :
  exists svg_code,
    logo_generator.generate_logo_svg prompt = Return svg_code /\
    svg_code = "<svg>...</svg>" /\
    starts_with "<svg" svg_code = true /\
    ends_with "</svg>" svg_code = true.
Proof. exists "<svg>...</svg>". repeat split. Qed.

(** ** Start-up: the token *)

(** The first variable wins when it is set and not empty, and then the
    second is not even read; otherwise the second variable is read and
    its value, set or not, is the token. *)
Lemma TOKEN_order (env : gmap string string) :
  TOKEN env =
  if truthy (env !! "DISCORD_BOT_TOKE")
  then (Return (env !! "DISCORD_BOT_TOKE"), [env_read "DISCORD_BOT_TOKE"])
  else (Return (env !! "DISCORD_BOT_TOKEN"),
        [env_read "DISCORD_BOT_TOKE"; env_read "DISCORD_BOT_TOKEN"]).
Proof.
  unfold TOKEN, os_getenv, py_or, bind, ret.
  destruct (truthy (env !! "DISCORD_BOT_TOKE")); reflexivity.
Qed.

Lemma TOKEN_falsy (env : gmap string string) :
  truthy (env !! "DISCORD_BOT_TOKE") = false ->
  truthy (env !! "DISCORD_BOT_TOKEN") = false ->
  exists token,
    truthy token = false /\
    TOKEN env =
    (Return token, [env_read "DISCORD_BOT_TOKE"; env_read "DISCORD_BOT_TOKEN"]).
Proof.
  intros H1 H2. exists (env !! "DISCORD_BOT_TOKEN"). split; [assumption |].
  rewrite TOKEN_order, H1. reflexivity.
Qed.

Lemma start_bot_refuses (env : gmap string string) (interrupted : bool) :
  truthy (env !! "DISCORD_BOT_TOKE") = false ->
  truthy (env !! "DISCORD_BOT_TOKEN") = false ->
  start_bot env interrupted = (Return tt, refusal).
Proof.
  intros H1 H2. destruct (TOKEN_falsy env H1 H2) as (token & Hfalsy & Htoken).
  unfold start_bot. rewrite Htoken. unfold bind at 1. rewrite Hfalsy.
  reflexivity.
Qed.

Lemma main_refuses (env : gmap string string) :
  truthy (env !! "DISCORD_BOT_TOKE") = false ->
  truthy (env !! "DISCORD_BOT_TOKEN") = false ->
  main env false = (Return (exit 1), refusal).
Proof.
  intros H1 H2. destruct (TOKEN_falsy env H1 H2) as (token & Hfalsy & Htoken).
  unfold main. rewrite Htoken. unfold bind at 1. rewrite Hfalsy.
  reflexivity.
Qed.

(** C10.  The token is the value of DISCORD_BOT_TOKE when that variable is
    set and not empty, and only otherwise is DISCORD_BOT_TOKEN read and
    used.  With both variables unset, [start_bot] prints the error and
    returns without starting the client, and the [__main__] block (run
    from the command line, no event loop running) prints the error and
    exits with code 1 without running the client. *)
Theorem token_resolution_and_refusal
    (env : gmap string string) (interrupted : bool) :
  env !! "DISCORD_BOT_TOKE" = None ->
  env !! "DISCORD_BOT_TOKEN" = None ->
  (forall env' : gmap string string,
      TOKEN env' =
      if truthy (env' !! "DISCORD_BOT_TOKE")
      then (Return (env' !! "DISCORD_BOT_TOKE"), [env_read "DISCORD_BOT_TOKE"])
      else (Return (env' !! "DISCORD_BOT_TOKEN"),
            [env_read "DISCORD_BOT_TOKE"; env_read "DISCORD_BOT_TOKEN"])) /\
  start_bot env interrupted =
  (Return tt,
   [env_read "DISCORD_BOT_TOKE"; env_read "DISCORD_BOT_TOKEN";
    print "❌ Error: DISCORD_BOT_TOKEN not set in .env file";
    print "Add to .env file: DISCORD_BOT_TOKE=your-token-here"]) /\
  starts_client (trace (start_bot env interrupted)) = false /\
  main env false =
  (Return (exit 1),
   [env_read "DISCORD_BOT_TOKE"; env_read "DISCORD_BOT_TOKEN";
    print "❌ Error: DISCORD_BOT_TOKEN not set in .env file";
    print "Add to .env file: DISCORD_BOT_TOKE=your-token-here"]) /\
  starts_client (trace (main env false)) = false.
Proof.
  intros H1 H2.
  assert (F1 : truthy (env !! "DISCORD_BOT_TOKE") = false) by now rewrite H1.
  assert (F2 : truthy (env !! "DISCORD_BOT_TOKEN") = false) by now rewrite H2.
  split; [exact TOKEN_order |].
  rewrite (start_bot_refuses env interrupted F1 F2), (main_refuses env F1 F2).
  repeat split.
Qed.

Lemma token_resolution_and_refusal_witness :
  (∅ : gmap string string) !! "DISCORD_BOT_TOKE" = None /\
  (∅ : gmap string string) !! "DISCORD_BOT_TOKEN" = None /\
  main ∅ false =
  (Return (exit 1),
   [env_read "DISCORD_BOT_TOKE"; env_read "DISCORD_BOT_TOKEN";
    print "❌ Error: DISCORD_BOT_TOKEN not set in .env file";
    print "Add to .env file: DISCORD_BOT_TOKE=your-token-here"]).
Proof.
  split; [reflexivity |]. split; [reflexivity |].
  pose proof (token_resolution_and_refusal ∅ false eq_refl eq_refl)
    as (_ & _ & _ & Hmain & _).
  exact Hmain.
Defined.

(** Runs with a token, for comparison. *)
Example main_prefers_first :
  main (<["DISCORD_BOT_TOKE" := "abc"]> (<["DISCORD_BOT_TOKEN" := "xyz"]> ∅)) false =
  (Return end_of_script,
   [env_read "DISCORD_BOT_TOKE"; print "🤖 Starting Discord bot...";
    client_run "abc"]).
Proof. vm_compute. reflexivity. Qed.

Example main_falls_back_on_empty :
  main (<["DISCORD_BOT_TOKE" := ""]> (<["DISCORD_BOT_TOKEN" := "xyz"]> ∅)) false =
  (Return end_of_script,
   [env_read "DISCORD_BOT_TOKE"; env_read "DISCORD_BOT_TOKEN";
    print "🤖 Starting Discord bot..."; client_run "xyz"]).
Proof. vm_compute. reflexivity. Qed.

Example main_in_notebook_reads_nothing :
  trace (main ∅ true) =
  [print "📓 Jupyter/IPython detected";
   print "⚠️  Run this instead: await start_bot()";
   print "⚠️  Or better: run from command line with 'python discord_logo_bot.py'"].
Proof. reflexivity. Qed.

(** ** Whole runs *)

Example run_fox_retro :
  generate_logo (rt_fixed "<svg>x</svg>") "a fox" (Some Retro) =
  (Return tt,
   [response_defer;
    remote "a fox in retro 80s synthwave style";
    followup_send
      (mkEmbed "🎨 Logo Generated!"
               "**Prompt:** a fox in retro 80s synthwave style" blue
               (Some "Powered by Modal + Qwen3-8B"))
      (Some (mkFile (list_byte_of_string "<svg>x</svg>")
                    "logo_20240517_120000.svg"))
      false]).
Proof. reflexivity. Qed.

(** Before the year 1000 the stamp is shorter. *)
Example stamp_of_year_999 :
  strftime_Ymd_HMS (mkDatetime 999 1 2 3 4 5) = "9990102_030405".
Proof. reflexivity. Qed.

Example run_fox_timed_out :
  generate_logo (rt_failing timed_out) "a fox" None =
  (Return tt,
   [response_defer;
    remote "a fox";
    followup_send
      (mkEmbed "❌ Generation Failed" "```deadline exceeded```" red None)
      None true]).
Proof. reflexivity. Qed.

Example run_fox_unbound :
  generate_logo rt_unbound "a fox" (Some Retro) =
  (Return tt,
   [response_send_message
      "❌ Modal app not connected. Please check the bot logs." true]).
Proof. reflexivity. Qed.

Example slice_keeps_whole_characters :
  first_characters 3 "héllo" = "hél" /\ first_characters 8 "abc" = "abc".
Proof. split; reflexivity. Qed.

Example start_bot_interrupted :
  trace (start_bot (<["DISCORD_BOT_TOKEN" := "xyz"]>
                      (<["DISCORD_PUBLIC_KEY" := "0123456789abcdef"]> ∅)) true) =
  [env_read "DISCORD_BOT_TOKE"; env_read "DISCORD_BOT_TOKEN";
   env_read "DISCORD_PUBLIC_KEY"; env_read "DISCORD_APP_ID";
   print "✅ Using Discord Public Key: 01234567...";
   print "🤖 Starting Discord bot...";
   client_start "xyz"; client_close].
Proof. vm_compute. reflexivity. Qed.

(** * Further properties *)

(** ** More on strings *)

Lemma append_assoc (s t u : string) : (s +:+ t) +:+ u = s +:+ t +:+ u.
Proof. induction s as [|c s IH]; simpl; [reflexivity | now rewrite IH]. Qed.

Lemma prefix_append (p t : string) : String.prefix p (p +:+ t) = true.
Proof.
  induction p as [|c p IH]; simpl; [now destruct t |].
  destruct (Ascii.ascii_dec c c) as [_|Hne]; [exact IH | now destruct Hne].
Qed.

Lemma substring_whole (s : string) : substring 0 (String.length s) s = s.
Proof. induction s as [|c s IH]; simpl; [reflexivity | now rewrite IH]. Qed.

Lemma substring_past_prefix (a b : string) (n : nat) :
  substring (String.length a) n (a +:+ b) = substring 0 n b.
Proof. induction a as [|c a IH]; simpl; [reflexivity | exact IH]. Qed.

Lemma ends_with_append (a p : string) : ends_with p (a +:+ p) = true.
Proof.
  unfold ends_with. rewrite length_append.
  replace (String.length a + String.length p - String.length p)
    with (String.length a) by lia.
  rewrite substring_past_prefix, substring_whole, String.eqb_refl.
  apply Nat.leb_le. lia.
Qed.

(** Two strings followed by the same text are equal when the wholes are. *)
Lemma append_cancel_r (t : string) :
  forall a a', a +:+ t = a' +:+ t -> a = a'.
Proof.
  intros a. induction a as [|c a IH]; intros a' Heq.
  - destruct a' as [|c' a']; [reflexivity |].
    apply (f_equal String.length) in Heq.
    simpl in Heq. rewrite length_append in Heq. lia.
  - destruct a' as [|c' a'].
    + apply (f_equal String.length) in Heq.
      simpl in Heq. rewrite length_append in Heq. lia.
    + simpl in Heq. injection Heq as -> Heq. f_equal. apply IH, Heq.
Qed.

(** ** The handler, whatever the outcome of the remote call *)

(** X2.  Every invocation answers the interaction once and first: the
    first call is the message or the acknowledgment, and no later call
    is one. *)
Theorem one_initial_response
    (rt : Runtime) (prompt : string) (style : option Choice) :
  exists first rest,
    trace (generate_logo rt prompt style) = first :: rest /\
    is_initial_response first = true /\
    forallb (fun ev => negb (is_initial_response ev)) rest = true.
Proof.
  destruct (generate_logo_svg rt) as [fn|] eqn:Hfn.
  - destruct (run_available rt prompt style fn Hfn)
      as (embed & file & eph & ->).
    do 2 eexists. repeat split.
  - rewrite (run_unavailable rt prompt style Hfn).
    do 2 eexists. repeat split.
Qed.


(** ** The composed prompt *)

(** X5.  The composed prompt begins with the user's prompt, untouched;
    with a style it ends in " style" and is longer than the prompt by
    the length of the style value and ten characters. *)
Theorem full_prompt_keeps_prompt (prompt : string) (style : option Choice) :
  starts_with prompt (full_prompt prompt style) = true /\
  forall c : Choice,
    ends_with " style" (full_prompt prompt (Some c)) = true /\
    String.length (full_prompt prompt (Some c)) =
    String.length prompt + String.length (value c) + 10.
Proof.
  split.
  - unfold starts_with. destruct style as [c|]; simpl.
    + apply prefix_append.
    + rewrite <- (append_empty_r prompt) at 2. apply prefix_append.
  - intros c. unfold full_prompt. split.
    + replace (prompt +:+ " in " +:+ value c +:+ " style")
        with ((prompt +:+ " in " +:+ value c) +:+ " style")
        by now rewrite !append_assoc.
      apply ends_with_append.
    + rewrite !length_append. simpl. lia.
Qed.

(** X6.  Under one and the same style choice (or none), two prompts that
    compose to the same text are the same prompt. *)
Theorem full_prompt_injective
    (prompt prompt' : string) (style : option Choice) :
  full_prompt prompt style = full_prompt prompt' style ->
  prompt = prompt'.
Proof.
  destruct style as [c|]; simpl; [| auto].
  apply append_cancel_r.
Qed.

Lemma full_prompt_injective_witness :
  full_prompt "a fox" (Some Retro) = full_prompt "a fox" (Some Retro) /\
  "a fox" = "a fox".
Proof.
  split; [reflexivity |].
  exact (full_prompt_injective "a fox" "a fox" (Some Retro) eq_refl).
Defined.

(** ** Time stamps read back *)

Lemma digit_value_digit_char (d : nat) : d < 10 -> digit_value (digit_char d) = d.
Proof.
  intros Hd.
  do 10 (destruct d as [|d]; [reflexivity |]).
  lia.
Qed.

(** With fuel to spare, [decimal_fuel] writes [n] in front of the
    accumulator: read after a value [v], it continues [v] by the digits
    of [n]. *)
Lemma decimal_value_from_fuel (fuel : nat) :
  forall n acc v,
    n < fuel ->
    exists k,
      decimal_value_from v (decimal_fuel fuel n acc) =
      decimal_value_from (v * 10 ^ k + n) acc.
Proof.
  induction fuel as [|fuel IH]; intros n acc v Hn; [lia |].
  cbn [decimal_fuel].
  pose proof (Nat.div_mod_eq n 10) as Hdm.
  assert (Hr : n mod 10 < 10) by (apply Nat.mod_upper_bound; discriminate).
  destruct (n / 10 =? 0) eqn:Hq.
  - apply Nat.eqb_eq in Hq. exists 1.
    cbn [decimal_value_from]. rewrite (digit_value_digit_char _ Hr).
    f_equal. rewrite Nat.pow_1_r. lia.
  - apply Nat.eqb_neq in Hq.
    assert (Hlt : n / 10 < fuel) by lia.
    destruct (IH (n / 10) (String (digit_char (n mod 10)) acc) v Hlt)
      as [k Hk].
    exists (S k). rewrite Hk.
    cbn [decimal_value_from]. rewrite (digit_value_digit_char _ Hr).
    f_equal. rewrite Nat.pow_succ_r'. lia.
Qed.

Lemma decimal_value_decimal (n : nat) : decimal_value (decimal n) = n.
Proof.
  unfold decimal_value, decimal.
  destruct (decimal_value_from_fuel (S n) n "" 0 ltac:(lia)) as [k ->].
  reflexivity.
Qed.

Lemma decimal_value_zeros (k : nat) (s : string) :
  decimal_value (zeros k +:+ s) = decimal_value s.
Proof.
  unfold decimal_value. induction k as [|k IH]; [reflexivity |].
  cbn [zeros String.append decimal_value_from]. exact IH.
Qed.

Lemma decimal_value_zero_padded (width n : nat) :
  decimal_value (zero_padded width n) = n.
Proof.
  unfold zero_padded. rewrite decimal_value_zeros. apply decimal_value_decimal.
Qed.

(** Strings of the same length in front of two texts can be told apart
    from the wholes. *)
Lemma append_split (a a' b b' : string) :
  String.length a = String.length a' ->
  a +:+ b = a' +:+ b' -> a = a' /\ b = b'.
Proof.
  revert a'. induction a as [|c a IH]; intros [|c' a'] Hlen Heq;
    simpl in Hlen; try discriminate.
  - simpl in Heq. auto.
  - simpl in Heq. injection Heq as -> Heq.
    destruct (IH a' ltac:(lia) Heq) as [-> ->]. auto.
Qed.

Lemma decimal_injective (a b : nat) : decimal a = decimal b -> a = b.
Proof.
  intros Heq. rewrite <- (decimal_value_decimal a), <- (decimal_value_decimal b).
  now rewrite Heq.
Qed.

Lemma zero_padded_injective (width a b : nat) :
  zero_padded width a = zero_padded width b -> a = b.
Proof.
  intros Heq.
  rewrite <- (decimal_value_zero_padded width a),
          <- (decimal_value_zero_padded width b).
  now rewrite Heq.
Qed.

Lemma zero_padded_2_length (n : nat) :
  n < 100 -> String.length (zero_padded 2 n) = 2.
Proof.
  intros Hn. apply (zero_padded_width 2 n); [lia |].
  change (10 ^ 2) with 100. exact Hn.
Qed.

(** Two clock readings with the same stamp are the same reading: the
    part behind the year has eleven characters whatever the reading, so
    the year can be told from the rest. *)
Lemma strftime_injective (d1 d2 : datetime) :
  valid_datetime d1 = true -> valid_datetime d2 = true ->
  strftime_Ymd_HMS d1 = strftime_Ymd_HMS d2 -> d1 = d2.
Proof.
  intros Hv1 Hv2 Heq.
  apply valid_datetime_bounds in Hv1, Hv2.
  destruct Hv1 as (_ & Hm1 & Hd1 & HH1 & HM1 & HS1).
  destruct Hv2 as (_ & Hm2 & Hd2 & HH2 & HM2 & HS2).
  apply zero_padded_2_length in Hm1, Hd1, HH1, HM1, HS1, Hm2, Hd2, HH2, HM2, HS2.
  unfold strftime_Ymd_HMS in Heq.
  assert (Hlen : String.length (decimal (year d1)) =
                 String.length (decimal (year d2))).
  { apply (f_equal String.length) in Heq.
    rewrite !length_append in Heq.
    rewrite Hm1, Hd1, HH1, HM1, HS1, Hm2, Hd2, HH2, HM2, HS2 in Heq. lia. }
  destruct (append_split _ _ _ _ Hlen Heq) as [Hyear Heq1].
  destruct (append_split _ _ _ _ (eq_trans Hm1 (eq_sym Hm2)) Heq1)
    as [Hmonth Heq2].
  destruct (append_split _ _ _ _ (eq_trans Hd1 (eq_sym Hd2)) Heq2)
    as [Hday Heq3].
  destruct (append_split "_" "_" _ _ eq_refl Heq3) as [_ Heq4].
  destruct (append_split _ _ _ _ (eq_trans HH1 (eq_sym HH2)) Heq4)
    as [Hhour Heq5].
  destruct (append_split _ _ _ _ (eq_trans HM1 (eq_sym HM2)) Heq5)
    as [Hminute Hsecond].
  apply decimal_injective in Hyear.
  apply zero_padded_injective in Hmonth, Hday, Hhour, Hminute, Hsecond.
  destruct d1, d2; cbn in *; congruence.
Qed.

(** X8.  Two successful invocations attach files of the same name
    exactly when their clock readings agree to the second; prompt, style
    and the returned markup play no part in the name. *)
Theorem file_name_tells_the_second
    (rt1 rt2 : Runtime) (prompt1 prompt2 : string)
    (style1 style2 : option Choice) (fn1 fn2 : RemoteFn)
    (svg_code1 svg_code2 : string) :
  generate_logo_svg rt1 = Some fn1 ->
  generate_logo_svg rt2 = Some fn2 ->
  fn1 (full_prompt prompt1 style1) = Return svg_code1 ->
  fn2 (full_prompt prompt2 style2) = Return svg_code2 ->
  valid_datetime (now rt1) = true ->
  valid_datetime (now rt2) = true ->
  map filename (attachments (trace (generate_logo rt1 prompt1 style1))) =
  map filename (attachments (trace (generate_logo rt2 prompt2 style2)))
  <-> now rt1 = now rt2.
Proof.
  intros Hfn1 Hfn2 Hcall1 Hcall2 Hv1 Hv2.
  rewrite (run_success rt1 prompt1 style1 fn1 svg_code1 Hfn1 Hcall1).
  rewrite (run_success rt2 prompt2 style2 fn2 svg_code2 Hfn2 Hcall2).
  cbn [trace snd attachments map success_file filename].
  split.
  - intros Hnames. injection Hnames as Hstamp.
    apply append_cancel_r in Hstamp.
    exact (strftime_injective (now rt1) (now rt2) Hv1 Hv2 Hstamp).
  - intros ->. reflexivity.
Qed.

Lemma file_name_tells_the_second_witness :
  map filename
    (attachments (trace (generate_logo (rt_fixed "<svg>y</svg>") "a fox" None))) =
  map filename
    (attachments (trace (generate_logo (rt_fixed "<svg>x</svg>")
                           "a wolf" (Some Gaming))))
  <-> now (rt_fixed "<svg>y</svg>") = now (rt_fixed "<svg>x</svg>").
Proof.
  exact (file_name_tells_the_second
           (rt_fixed "<svg>y</svg>") (rt_fixed "<svg>x</svg>")
           "a fox" "a wolf" None (Some Gaming)
           (fun _ => Return "<svg>y</svg>") (fun _ => Return "<svg>x</svg>")
           "<svg>y</svg>" "<svg>x</svg>"
           eq_refl eq_refl eq_refl eq_refl eq_refl eq_refl).
Defined.

(** ** Start-up, with and without a token *)

Lemma truthy_resolved_token (env : gmap string string) :
  truthy (resolved_token env) =
  truthy (env !! "DISCORD_BOT_TOKE") || truthy (env !! "DISCORD_BOT_TOKEN").
Proof.
  unfold resolved_token.
  destruct (truthy (env !! "DISCORD_BOT_TOKE")) eqn:H; [exact H | reflexivity].
Qed.

(** Case analysis on every test a start-up function makes on [env]. *)
Ltac boot_cases env :=
  rewrite ?TOKEN_order; unfold resolved_token;
  destruct (truthy (env !! "DISCORD_BOT_TOKE")) eqn:Hfirst;
  [| destruct (truthy (env !! "DISCORD_BOT_TOKEN")) eqn:Hsecond];
  cbn [bind negb fst snd];
  repeat match goal with
         | H : truthy _ = _ |- _ => rewrite H
         end;
  unfold os_getenv, token_missing, emit, ret;
  cbn [bind negb fst snd];
  try (destruct (truthy (env !! "DISCORD_PUBLIC_KEY"));
       destruct (truthy (env !! "DISCORD_APP_ID")));
  cbn.

Lemma start_bot_client (env : gmap string string) (interrupted : bool) :
  started_with (trace (start_bot env interrupted)) =
  (if truthy (resolved_token env)
   then [default "" (resolved_token env)] else []) /\
  closes_client (trace (start_bot env interrupted)) =
  truthy (resolved_token env) && interrupted.
Proof.
  unfold start_bot. boot_cases env; destruct interrupted; split; reflexivity.
Qed.

Lemma main_client (env : gmap string string) (running_loop : bool) :
  outcome (main env running_loop) =
  Return (if negb running_loop && negb (truthy (resolved_token env))
          then exit 1 else end_of_script) /\
  started_with (trace (main env running_loop)) =
  (if negb running_loop && truthy (resolved_token env)
   then [default "" (resolved_token env)] else []).
Proof.
  unfold main. destruct running_loop; [split; reflexivity |].
  boot_cases env; split; reflexivity.
Qed.

(** X9.  [start_bot] starts the client exactly when one of the two token
    variables is set and not empty, once, and with the token resolved
    from them; it closes the client exactly when it had started it and
    was interrupted. *)
Theorem start_bot_starts_with_resolved_token
    (env : gmap string string) (interrupted : bool) :
  started_with (trace (start_bot env interrupted)) =
  (if truthy (env !! "DISCORD_BOT_TOKE") || truthy (env !! "DISCORD_BOT_TOKEN")
   then [default "" (resolved_token env)] else []) /\
  closes_client (trace (start_bot env interrupted)) =
  (truthy (env !! "DISCORD_BOT_TOKE") || truthy (env !! "DISCORD_BOT_TOKEN"))
  && interrupted.
Proof.
  rewrite <- truthy_resolved_token. apply start_bot_client.
Qed.


(** X11.  A token variable set to the empty string counts as unset: with
    DISCORD_BOT_TOKE empty, the client is started with the value of
    DISCORD_BOT_TOKEN. *)
Theorem empty_first_variable_falls_back
    (env : gmap string string) (interrupted : bool) (token : string) :
  env !! "DISCORD_BOT_TOKE" = Some "" ->
  env !! "DISCORD_BOT_TOKEN" = Some token ->
  token <> "" ->
  started_with (trace (start_bot env interrupted)) = [token] /\
  started_with (trace (main env false)) = [token].
Proof.
  intros H1 H2 Hne.
  assert (Hr : resolved_token env = Some token).
  { unfold resolved_token. rewrite H1, H2. reflexivity. }
  assert (Ht : truthy (resolved_token env) = true).
  { rewrite Hr. simpl.
    destruct (String.eqb_spec token ""); [contradiction | reflexivity]. }
  destruct (start_bot_client env interrupted) as [-> _].
  destruct (main_client env false) as [_ ->].
  rewrite Ht, Hr. split; reflexivity.
Qed.

Lemma empty_first_variable_falls_back_witness :
  started_with
    (trace (main (<["DISCORD_BOT_TOKE" := ""]>
                    (<["DISCORD_BOT_TOKEN" := "xyz"]> ∅)) false)) = ["xyz"].
Proof.
  refine (proj2 (empty_first_variable_falls_back
                   (<["DISCORD_BOT_TOKE" := ""]>
                      (<["DISCORD_BOT_TOKEN" := "xyz"]> ∅))
                   false "xyz" _ _ _)).
  - vm_compute. reflexivity.
  - vm_compute. reflexivity.
  - discriminate.
Defined.

(** ** [on_ready] *)

Ltac ready_cases env MODAL_SERVER synced :=
  unfold on_ready, say_if_set, say, lift, call_sync, os_getenv, try_except,
    emit, ret;
  cbn [bind fst snd map app];
  destruct (truthy (env !! "DISCORD_APP_ID")); cbn [bind fst snd map app];
  destruct (truthy (env !! "DISCORD_INSTALL_LINK")); cbn [bind fst snd map app];
  destruct (truthy MODAL_SERVER); cbn [bind fst snd map app];
  destruct synced; cbn [bind fst snd map app outcome trace sync_report].

(** Every run of [on_ready] is the prelude, the sync and its report. *)
Lemma on_ready_run
    (user : User) (env : gmap string string)
    (MODAL_SERVER : option string) (synced : result (list AppCommand)) :
  on_ready user env MODAL_SERVER synced =
  (Return tt,
   ready_prelude user env MODAL_SERVER
   ++ [tree_sync; say_event (sync_report synced)]).
Proof.
  unfold ready_prelude, optional_line, say_event.
  ready_cases env MODAL_SERVER synced; reflexivity.
Qed.

Lemma sync_calls_app (t u : list ReadyEvent) :
  sync_calls (t ++ u) = sync_calls t + sync_calls u.
Proof.
  induction t as [|ev t IH]; [reflexivity |].
  destruct ev; cbn [app sync_calls]; rewrite IH; reflexivity.
Qed.

Lemma printed_app (t u : list ReadyEvent) :
  printed (t ++ u) = printed t ++ printed u.
Proof.
  induction t as [|ev t IH]; [reflexivity |].
  destruct ev as [[]|]; cbn [app printed]; rewrite IH; reflexivity.
Qed.

Lemma optional_line_facts (label : string) (v : option string) :
  sync_calls (optional_line label v) = 0 /\
  List.length (printed (optional_line label v)) = set_count v.
Proof.
  unfold optional_line, set_count. destruct (truthy v); split; reflexivity.
Qed.

Lemma ready_prelude_facts (user : User) (env : gmap string string)
    (MODAL_SERVER : option string) :
  sync_calls (ready_prelude user env MODAL_SERVER) = 0 /\
  List.length (printed (ready_prelude user env MODAL_SERVER)) =
  2 + set_count (env !! "DISCORD_APP_ID")
    + set_count (env !! "DISCORD_INSTALL_LINK")
    + set_count MODAL_SERVER.
Proof.
  unfold ready_prelude.
  rewrite !sync_calls_app, !printed_app, !length_app.
  destruct (optional_line_facts "✅ Application ID: " (env !! "DISCORD_APP_ID"))
    as [-> ->].
  destruct (optional_line_facts "🔗 Install Link: " (env !! "DISCORD_INSTALL_LINK"))
    as [-> ->].
  destruct (optional_line_facts "🌐 Modal Server: " MODAL_SERVER) as [-> ->].
  split; cbn; lia.
Qed.

(** X13.  The last thing [on_ready] does is report the sync it has just
    made: the number of commands when it returned, the text of the
    exception when it raised. *)
Theorem on_ready_reports_sync
    (user : User) (env : gmap string string)
    (MODAL_SERVER : option string) (synced : result (list AppCommand)) :
  exists before,
    trace (on_ready user env MODAL_SERVER synced) =
    before ++
    [tree_sync;
     startup (print
                match synced with
                | Return commands =>
                    "✅ Synced " +:+ decimal (List.length commands)
                    +:+ " command(s)"
                | Raise e => "❌ Failed to sync commands: " +:+ exc_str e
                end)] /\
    sync_calls before = 0.
Proof.
  exists (ready_prelude user env MODAL_SERVER).
  rewrite on_ready_run. split; [reflexivity |].
  apply ready_prelude_facts.
Qed.

(** X14.  [on_ready] prints the two login lines first, then one line for
    each of the application id, the install link and the server address
    that is set and not empty, then the sync report: three lines at
    least, six at most. *)
Theorem on_ready_lines
    (user : User) (env : gmap string string)
    (MODAL_SERVER : option string) (synced : result (list AppCommand)) :
  firstn 2 (printed (trace (on_ready user env MODAL_SERVER synced))) =
  ["✅ Logged in as " +:+ user_name user;
   "✅ Bot ID: " +:+ decimal (user_id user)] /\
  List.length (printed (trace (on_ready user env MODAL_SERVER synced))) =
  3 + set_count (env !! "DISCORD_APP_ID")
    + set_count (env !! "DISCORD_INSTALL_LINK")
    + set_count MODAL_SERVER.
Proof.
  rewrite on_ready_run. cbn [trace snd]. split.
  - reflexivity.
  - rewrite printed_app, length_app.
    destruct (ready_prelude_facts user env MODAL_SERVER) as [_ ->].
    cbn. lia.
Qed.

(** ** The import block *)

Lemma in_path_In (path : string) (sys_path : list string) :
  in_path path sys_path = true <-> List.In path sys_path.
Proof.
  unfold in_path. rewrite existsb_exists. split.
  - intros (x & Hx & Heq). apply String.eqb_eq in Heq. now subst.
  - intros Hin. exists path. split; [exact Hin | apply String.eqb_refl].
Qed.

Lemma add_to_sys_path_cases (path : string) (sys_path : list string) :
  (List.In path sys_path /\ add_to_sys_path path sys_path = sys_path) \/
  (~ List.In path sys_path /\ add_to_sys_path path sys_path = path :: sys_path).
Proof.
  unfold add_to_sys_path. destruct (in_path path sys_path) eqn:Hin.
  - left. split; [now apply in_path_In | reflexivity].
  - right. split; [| reflexivity].
    intros Habs. apply in_path_In in Habs. congruence.
Qed.

Lemma add_to_sys_path_idempotent (path : string) (sys_path : list string) :
  add_to_sys_path path (add_to_sys_path path sys_path) =
  add_to_sys_path path sys_path.
Proof.
  destruct (add_to_sys_path_cases path sys_path) as [[Hin ->]|[_ ->]].
  - destruct (add_to_sys_path_cases path sys_path) as [[_ H]|[Hout _]];
      [exact H | contradiction].
  - unfold add_to_sys_path at 1.
    replace (in_path path (path :: sys_path)) with true; [reflexivity |].
    symmetry. apply in_path_In. now left.
Qed.

Lemma import_block_outcome (h : Host) (sys_path : list string) :
  outcome (import_block h sys_path) =
  Return (add_to_sys_path (modal_project_path h) sys_path,
          bind_generate_logo_svg
            (import_logo_generator h
               (add_to_sys_path (modal_project_path h) sys_path))).
Proof.
  unfold import_block.
  destruct (import_logo_generator h _); reflexivity.
Qed.

(** X15.  Whatever the import comes to, the block leaves the project
    directory on the search path, keeps every entry that was there, adds
    nothing else, and does not introduce a duplicate. *)
Theorem import_block_search_path (h : Host) (sys_path : list string) :
  exists sys_path' binding,
    outcome (import_block h sys_path) = Return (sys_path', binding) /\
    List.In (modal_project_path h) sys_path' /\
    (forall entry, List.In entry sys_path' <->
                   entry = modal_project_path h \/ List.In entry sys_path) /\
    (exists front, sys_path' = front ++ sys_path) /\
    (List.NoDup sys_path -> List.NoDup sys_path').
Proof.
  do 2 eexists. split; [apply import_block_outcome |].
  destruct (add_to_sys_path_cases (modal_project_path h) sys_path)
    as [[Hin ->]|[Hout ->]].
  - split; [exact Hin |]. split; [| split].
    + intros entry. split; [auto |]. intros [-> | H]; assumption.
    + exists []. reflexivity.
    + auto.
  - split; [now left |]. split; [| split].
    + intros entry. simpl. split; intros [H | H]; auto.
    + exists [modal_project_path h]. reflexivity.
    + intros Hnd. constructor; assumption.
Qed.

(** X16.  Running the block again on the search path it left repeats the
    first run: same path, same binding, same lines printed. *)
Theorem import_block_idempotent
    (h : Host) (sys_path sys_path' : list string) (binding : option RemoteFn) :
  outcome (import_block h sys_path) = Return (sys_path', binding) ->
  import_block h sys_path' = import_block h sys_path.
Proof.
  rewrite import_block_outcome. intros Hout. injection Hout as <- _.
  unfold import_block. rewrite add_to_sys_path_idempotent. reflexivity.
Qed.

Lemma import_block_idempotent_witness :
  import_block host_with_project ["/home/user/modal_project/src"] =
  import_block host_with_project [].
Proof.
  exact (import_block_idempotent host_with_project []
           ["/home/user/modal_project/src"]
           (Some (fun _ => Return "<svg>x</svg>")) eq_refl).
Defined.

(** X17.  When the import fails, the block still completes, printing its
    three warnings, and every later invocation of the command gets the
    private notice and makes no remote call. *)
Theorem failed_import_disables_command
    (h : Host) (sys_path sys_path' : list string)
    (binding : option RemoteFn) (msg : string) :
  import_logo_generator h (add_to_sys_path (modal_project_path h) sys_path) =
  ImportError msg ->
  outcome (import_block h sys_path) = Return (sys_path', binding) ->
  trace (import_block h sys_path) =
  [print ("⚠️  Warning: Could not import Modal function: " +:+ msg);
   print "⚠️  Make sure modal_project/src/logo_generator.py exists";
   print ("⚠️  Current working directory: " +:+ getcwd h)] /\
  forall (clock : datetime) (prompt : string) (style : option Choice),
    generate_logo (mkRuntime binding clock) prompt style =
    (Return tt,
     [response_send_message
        "❌ Modal app not connected. Please check the bot logs." true]).
Proof.
  intros Himport Hout.
  rewrite import_block_outcome, Himport in Hout. injection Hout as _ <-.
  split.
  - unfold import_block. rewrite Himport. reflexivity.
  - intros clock prompt style. reflexivity.
Qed.

Lemma failed_import_disables_command_witness :
  generate_logo (mkRuntime None noon) "a fox" (Some Retro) =
  (Return tt,
   [response_send_message
      "❌ Modal app not connected. Please check the bot logs." true]).
Proof.
  exact (proj2 (failed_import_disables_command host_without_project []
                  ["/srv/bot/modal_project/src"] None
                  "No module named 'logo_generator'" eq_refl eq_refl)
               noon "a fox" (Some Retro)).
Defined.
